(** * Semantic_Similarity_SNOMED: the graph builder, the measure dispatch
      and the batch distance matrices

    A shallow embedding of [GraphBuilder.py], of [calculateSimilarity] in
    [Main.py] / [graphbuilder/Main.py], and of the distance code of
    [scripts/calculate_all_alphas.py] and [scripts/build_distance_matrix.py].

    Python exceptions are values of an error monad, a [networkx.DiGraph]
    is a finite set of nodes with a finite map from ordered pairs to edge
    labels, and a [pandas.DataFrame] indexed by concept ids is a finite
    map from pairs of labels to cells. *)

From Stdlib Require Import ZArith Ascii.
From stdpp Require Import gmap strings list fin_maps relations.

Set Warnings "-clear-no-such-hyp".

(** ** Python primitives used by the sources *)

Module Py.

(** The exceptions that the modelled code can meet. *)
Inductive exn : Type :=
| IndexError
| TypeError
| KeyError
| ZeroDivisionError
| OtherError (msg : string).

(** An evaluation either returns or raises. *)
Inductive result (A : Type) : Type :=
| Ok (a : A)
| Raise (e : exn).
Global Arguments Ok {A} a.
Global Arguments Raise {A} e.

Definition bind {A B : Type} (r : result A) (k : A -> result B) : result B :=
  match r with
  | Ok a => k a
  | Raise e => Raise e
  end.

Definition raises {A : Type} (r : result A) : bool :=
  match r with
  | Ok _ => false
  | Raise _ => true
  end.

(** [s.split(sep)] for a separator of one character: the fields between
    the occurrences of [sep]; never the empty list. *)
Fixpoint split (sep : ascii) (s : string) : list string :=
  match s with
  | EmptyString => [EmptyString]
  | String c rest =>
      if Ascii.eqb c sep then EmptyString :: split sep rest
      else match split sep rest with
           | [] => [String c EmptyString]
           | field :: fields => String c field :: fields
           end
  end.

(** [parts[i]] for [i >= 0]: raises [IndexError] out of range. *)
Definition index {A : Type} (parts : list A) (i : nat) : result A :=
  match parts !! i with
  | Some x => Ok x
  | None => Raise IndexError
  end.

(** The values that a distance query hands to the scripts. *)
Inductive value : Type :=
| Int (z : Z)
| NoneV.

(** [min(a, b)]: compares with [<], which [None] does not support. *)
Definition min (a b : value) : result value :=
  match a, b with
  | Int x, Int y => Ok (Int (Z.min x y))
  | _, _ => Raise TypeError
  end.

End Py.

Import Py.

Notation "'let!' x ':=' r 'in' k" := (Py.bind r (fun x => k))
  (at level 10, x name, r at level 100, k at level 200).

(** The tab character, and a row made of tab-separated fields. *)
Definition TAB : ascii := ascii_of_nat 9.

Definition row (fields : list string) : string :=
  String.concat (String TAB EmptyString) fields.

(** ** networkx.DiGraph *)

Module nx.

Record DiGraph : Type := mkDiGraph {
  nodes : gset string;
  edges : gmap (string * string) string
}.

(** [nx.DiGraph()] *)
Definition empty : DiGraph := mkDiGraph ∅ ∅.

(** [graph.add_node(n)] *)
Definition add_node (graph : DiGraph) (n : string) : DiGraph :=
  mkDiGraph ({[n]} ∪ nodes graph) (edges graph).

(** [graph.has_edge(u, v)] *)
Definition has_edge (graph : DiGraph) (u v : string) : bool :=
  bool_decide (is_Some (edges graph !! (u, v))).

(** [graph.add_edge(u, v, label=l)]: both end points become nodes when
    they are not nodes yet, and the label of the pair is set. *)
Definition add_edge (graph : DiGraph) (u v l : string) : DiGraph :=
  mkDiGraph ({[u; v]} ∪ nodes graph) (<[(u, v) := l]> (edges graph)).

(** The edge relation and its cycles. *)
Definition edge (graph : DiGraph) (u v : string) : Prop :=
  is_Some (edges graph !! (u, v)).

Definition acyclic (graph : DiGraph) : Prop :=
  ∀ u, ¬ tc (edge graph) u u.

End nx.

(** ** GraphBuilder.py *)

Definition edge_line (without_attribute_relation : bool)
    (graph : nx.DiGraph) (line : string) : result nx.DiGraph :=
  let parts := split TAB line in
  let! active := index parts 2 in
  let! focus_concept := index parts 4 in
  let! attribute_value := index parts 5 in
  let! relation_type := index parts 7 in
  let b :=
    if without_attribute_relation
    then String.eqb active "1" && String.eqb relation_type "116680003"
    else String.eqb active "1" in
  if b then
    if negb (nx.has_edge graph focus_concept attribute_value)
    then Ok (nx.add_edge graph focus_concept attribute_value relation_type)
    else Ok graph
  else Ok graph.

Fixpoint builtEdge (graph : nx.DiGraph) (lines : list string)
    (without_attribute_relation : bool) : result nx.DiGraph :=
  match lines with
  | [] => Ok graph
  | line :: rest =>
      let! graph' := edge_line without_attribute_relation graph line in
      builtEdge graph' rest without_attribute_relation
  end.

Definition node_line (graph : nx.DiGraph) (line : string)
    : result nx.DiGraph :=
  let parts := split TAB line in
  let! node := index parts 0 in
  let! active := index parts 2 in
  if String.eqb active "1" then Ok (nx.add_node graph node) else Ok graph.

Fixpoint builtNode (graph : nx.DiGraph) (lines : list string)
    : result nx.DiGraph :=
  match lines with
  | [] => Ok graph
  | line :: rest =>
      let! graph' := node_line graph line in
      builtNode graph' rest
  end.

(** [createGraph] on the lines read from the two snapshot files; the graph
    is the one that the code pickles. *)
Definition createGraph (Lines0 Lines1 : list string)
    (without_attribute_relation : bool) : result nx.DiGraph :=
  let! graph := builtNode nx.empty Lines0 in
  builtEdge graph Lines1 without_attribute_relation.

(** ** Reading the rows *)

(** Field [i] of a tab-delimited line, when the line has one. *)
Definition field (line : string) (i : nat) : option string :=
  split TAB line !! i.

(** A concept row that names [c] with the active flag set. *)
Definition active_concept_row (line c : string) : Prop :=
  field line 0 = Some c ∧ field line 2 = Some "1".

(** The admission test of [builtEdge] on the active flag and the type. *)
Definition admits (without_attribute_relation : bool)
    (active relation_type : string) : bool :=
  if without_attribute_relation
  then String.eqb active "1" && String.eqb relation_type "116680003"
  else String.eqb active "1".

(** A relationship row from [s] to [d] of type [t] that passes the test. *)
Definition admitted_row (without_attribute_relation : bool)
    (line s d t : string) : Prop :=
  field line 2 = Some "1" ∧ field line 4 = Some s ∧
  field line 5 = Some d ∧ field line 7 = Some t ∧
  (without_attribute_relation = true → t = "116680003").

#[local] Instance admitted_row_dec wo line s d t :
  Decision (admitted_row wo line s d t).
Proof. unfold admitted_row. apply _. Defined.

(** The first row of [lines] admitted for the pair [(s, d)] has type [t]. *)
Definition first_admitted (without_attribute_relation : bool)
    (lines : list string) (s d t : string) : Prop :=
  ∃ before line after,
    lines = before ++ line :: after ∧
    admitted_row without_attribute_relation line s d t ∧
    ∀ x t', x ∈ before → ¬ admitted_row without_attribute_relation x s d t'.

(** End points of edges are nodes: what [add_edge] maintains. *)
Definition closed (graph : nx.DiGraph) : Prop :=
  ∀ u v, nx.edge graph u v → u ∈ nx.nodes graph ∧ v ∈ nx.nodes graph.

(** The pairs that some admitted row of [lines] relates. *)
Definition admitted_rel (without_attribute_relation : bool)
    (lines : list string) (s d : string) : Prop :=
  ∃ line t, line ∈ lines ∧ admitted_row without_attribute_relation line s d t.

(** Example rows: concept 100 is inactive and concept 300 active; the
    first relationship is a subsumption, the second an attribute. *)
Definition ex_concepts : list string :=
  [ row ["100"; "20230430"; "0"; "m"; "d"];
    row ["300"; "20230430"; "1"; "m"; "d"] ].

Definition ex_rels : list string :=
  [ row ["r1"; "20230430"; "1"; "m"; "100"; "200"; "0"; "116680003"; "c"; "x"];
    row ["r2"; "20230430"; "1"; "m"; "300"; "200"; "0"; "363698007"; "c"; "x"] ].

(** A line with a single field, and two subsumption rows that point at each
    other. *)
Definition ex_short : string := "garbage".

Definition ex_cycle_rels : list string :=
  [ row ["r3"; "20230430"; "1"; "m"; "100"; "200"; "0"; "116680003"; "c"; "x"];
    row ["r4"; "20230430"; "1"; "m"; "200"; "100"; "0"; "116680003"; "c"; "x"] ].

(** ** Main.py and graphbuilder/Main.py: the dispatch on the measure name *)

(** The dictionary with the keys ["rel"] and ["sim"]. *)
Record Ontology : Type := mkOntology {
  rel : nx.DiGraph;
  sim : nx.DiGraph
}.

(** What [calculateSimilarity] hands back: the number of a measure, or a
    text. *)
Inductive output (float : Type) : Type :=
| Number (x : float)
| Text (s : string).
Arguments Number {float} x.
Arguments Text {float} s.

(** The interface of [Measure.py], which is not among the sources: seven
    functions of the ontology and two concepts, each of which returns a
    number or raises. *)
Class Measure (float : Type) : Type := {
  calculate_relatedness_WuPalmer :
    Ontology → string → string → result float;
  calculate_relatedness_ChoiKim :
    Ontology → string → string → result float;
  calculate_relatedness_LeacockChodorow :
    Ontology → string → string → result float;
  calculate_relatedness_BatetSanchezValls :
    Ontology → string → string → result float;
  calculate_relatedness_Resnik :
    Ontology → string → string → result float;
  calculate_relatedness_Lin :
    Ontology → string → string → result float;
  calculate_relatedness_JiangConrathDissimilarity :
    Ontology → string → string → result float
}.

Definition calculateSimilarity {float : Type} `{Measure float}
    (ontology : Ontology) (measure_name concept1 concept2 : string)
    : result (output float) :=
  if String.eqb measure_name "WuPalmer" then
    let! x := calculate_relatedness_WuPalmer ontology concept1 concept2 in
    Ok (Number x)
  else if String.eqb measure_name "ChoiKim" then
    let! x := calculate_relatedness_ChoiKim ontology concept1 concept2 in
    Ok (Number x)
  else if String.eqb measure_name "LeacockChodorow" then
    let! x := calculate_relatedness_LeacockChodorow ontology concept1 concept2 in
    Ok (Number x)
  else if String.eqb measure_name "BatetSanchezValls" then
    let! x := calculate_relatedness_BatetSanchezValls ontology concept1 concept2 in
    Ok (Number x)
  else if String.eqb measure_name "Resnik" then
    let! x := calculate_relatedness_Resnik ontology concept1 concept2 in
    Ok (Number x)
  else if String.eqb measure_name "Lin" then
    let! x := calculate_relatedness_Lin ontology concept1 concept2 in
    Ok (Number x)
  else if String.eqb measure_name "JiangConrathDissimilarity" then
    let! x :=
      calculate_relatedness_JiangConrathDissimilarity ontology concept1 concept2 in
    Ok (Number x)
  else Ok (Text "Wrong measure name!").

(** The seven names that the dispatch compares with. *)
Definition measure_names : list string :=
  [ "WuPalmer"; "ChoiKim"; "LeacockChodorow"; "BatetSanchezValls";
    "Resnik"; "Lin"; "JiangConrathDissimilarity" ].

(** A stand-in for [Measure.py] with integers for numbers. *)
Definition ex_measure : Measure Z := {|
  calculate_relatedness_WuPalmer := λ _ _ _, Ok 1%Z;
  calculate_relatedness_ChoiKim := λ _ _ _, Ok 2%Z;
  calculate_relatedness_LeacockChodorow := λ _ _ _, Ok 3%Z;
  calculate_relatedness_BatetSanchezValls := λ _ _ _, Ok 4%Z;
  calculate_relatedness_Resnik := λ _ _ _, Ok 5%Z;
  calculate_relatedness_Lin := λ _ _ _, Raise ZeroDivisionError;
  calculate_relatedness_JiangConrathDissimilarity := λ _ _ _, Ok 7%Z
|}.

(** ** scripts/calculate_all_alphas.py and scripts/build_distance_matrix.py *)

Definition SNOMED_ROOT : string := "138875005".

(** [Worker.length_of_shortest_path(graph, root, concept1, concept2)].
    [Worker.py] is not among the sources; the scripts use it as a function
    of its four arguments that returns a value or raises. *)
Class Worker : Type :=
  length_of_shortest_path :
    nx.DiGraph → string → string → string → result value.

(** A cell of a data frame of floats. *)
Inductive cell : Type :=
| Num (z : Z)
| Inf
| NaN.

(** A data frame with the same labels for rows and columns, every cell
    holding [fill]; a cell is addressed by its two labels as [.loc] does. *)
Definition frame (labels : list string) (fill : cell)
    : gmap (string * string) cell :=
  list_to_map (c1 ← labels; c2 ← labels; [((c1, c2), fill)]).

(** The cells of [m] are the pairs of labels of [labels]. *)
Definition shaped (labels : list string) (m : gmap (string * string) cell)
    : Prop :=
  ∀ a b, is_Some (m !! (a, b)) ↔ a ∈ labels ∧ b ∈ labels.

(** [enumerate(l)] *)
Definition enumerate {A : Type} (l : list A) : list (nat * A) :=
  imap pair l.

(** What a float frame stores for a value assigned to a cell. *)
Definition to_cell (v : value) : cell :=
  match v with
  | Int z => Num z
  | NoneV => NaN
  end.

Section Distances.
Context `{Worker}.

Definition shortest_path_distance (graph : nx.DiGraph)
    (concept1 concept2 : string) : value :=
  if String.eqb concept1 concept2 then Int 0
  else
    match
      (let! dist_ab :=
         length_of_shortest_path graph SNOMED_ROOT concept1 concept2 in
       let! dist_ba :=
         length_of_shortest_path graph SNOMED_ROOT concept2 concept1 in
       let! distance := Py.min dist_ab dist_ba in
       Ok distance)
    with
    | Ok distance => distance
    | Raise _ => NoneV
    end.

(** The body of the two nested loops of
    [calculate_pairwise_distances_from_graph]. *)
Definition pairwise_cell (graph : nx.DiGraph)
    (distance_matrix : gmap (string * string) cell)
    (i : nat) (c1 : string) (j : nat) (c2 : string)
    : gmap (string * string) cell :=
  if i <=? j then
    if i =? j then <[(c1, c2) := Num 0]> distance_matrix
    else
      match shortest_path_distance graph c1 c2 with
      | Int dist =>
          <[(c2, c1) := Num dist]> (<[(c1, c2) := Num dist]> distance_matrix)
      | NoneV =>
          <[(c2, c1) := Num 50]> (<[(c1, c2) := Num 50]> distance_matrix)
      end
  else distance_matrix.

Definition calculate_pairwise_distances_from_graph
    (concepts : list string) (graph : nx.DiGraph)
    : gmap (string * string) cell :=
  foldl
    (λ m '(i, c1),
       foldl (λ m' '(j, c2), pairwise_cell graph m' i c1 j c2)
             m (enumerate concepts))
    (frame concepts (Num 0)) (enumerate concepts).

(** The body of the two nested loops of [build_distance_matrix]. *)
Definition build_cell (snomed_graph : nx.DiGraph)
    (matrix : gmap (string * string) cell) (concept1 concept2 : string)
    : gmap (string * string) cell :=
  match length_of_shortest_path snomed_graph SNOMED_ROOT concept1 concept2 with
  | Ok distance => <[(concept1, concept2) := to_cell distance]> matrix
  | Raise _ => <[(concept1, concept2) := Inf]> matrix
  end.

(** [build_distance_matrix] once the graph file is loaded. *)
Definition build_distance_matrix (snomed_graph : nx.DiGraph)
    (concept_list : list string) : gmap (string * string) cell :=
  foldl
    (λ m concept1,
       foldl (λ m' concept2, build_cell snomed_graph m' concept1 concept2)
             m concept_list)
    (frame concept_list NaN) concept_list.

(** What the loop of [calculate_pairwise_distances_from_graph] stores for
    a value of [shortest_path_distance]: the distance, or 50 for [None]. *)
Definition stored (v : value) : cell :=
  match v with
  | Int dist => Num dist
  | NoneV => Num 50
  end.

(** The cell [k] of [m] holds what the loop stores for its two labels. *)
Definition settled (graph : nx.DiGraph)
    (m : gmap (string * string) cell) (k : string * string) : Prop :=
  m !! k = Some (stored (shortest_path_distance graph k.1 k.2)).

(** What the loop of [build_distance_matrix] stores for a pair: the
    result of the query, or infinity when the query raised. *)
Definition built (graph : nx.DiGraph) (c1 c2 : string) : cell :=
  match length_of_shortest_path graph SNOMED_ROOT c1 c2 with
  | Ok distance => to_cell distance
  | Raise _ => Inf
  end.

End Distances.

(** Stand-ins for [Worker.py]: one that never finds a path, and one that
    answers only from ["100"] to ["200"]. *)
Definition ex_worker_raises : Worker :=
  λ _ _ _ _, Raise KeyError.

Definition ex_worker_one_way : Worker :=
  λ _ _ c1 c2,
    if String.eqb c1 "100" && String.eqb c2 "200" then Ok (Int 3)
    else Raise KeyError.

(** ** Rows given by their fields *)

(** A field without a tab in it. *)
Fixpoint tab_free (s : string) : bool :=
  match s with
  | EmptyString => true
  | String c rest => negb (Ascii.eqb c TAB) && tab_free rest
  end.

(** ** scripts/calculate_all_alphas.py: the agreement of two mappers *)

Definition MAPPERS : list string :=
  ["Mapper_A"; "Mapper_B"; "Mapper_C"; "Mapper_D"].

(** [itertools.combinations(l, 2)] *)
Fixpoint combinations2 {A : Type} (l : list A) : list (A * A) :=
  match l with
  | [] => []
  | x :: rest => map (pair x) rest ++ combinations2 rest
  end.

(** A row of the mapping table as [iterrows] yields it: the cell of each
    column, [None] where the cell is NaN. *)
Definition series : Type := string → option string.

(** The three counters of one comparison. *)
Record tally : Type := mkTally {
  both_responded : nat;
  agreements : nat;
  disagreements : nat
}.

(** The body of the loop over the rows. *)
Definition tally_row (m1 m2 : string) (t : tally) (row : series) : tally :=
  let v1 := row m1 in
  let v2 := row m2 in
  match v1, v2 with
  | Some x1, Some x2 =>
      if String.eqb x1 x2
      then mkTally (S (both_responded t)) (S (agreements t)) (disagreements t)
      else mkTally (S (both_responded t)) (agreements t) (S (disagreements t))
  | _, _ => t
  end.

(** One entry of [results]; the percentage, a float derived from the
    counters, is not part of the model. *)
Record comparison : Type := mkComparison {
  mapper1 : string;
  mapper2 : string;
  counts : tally
}.

Definition calculate_pairwise_mapper_agreement (data : list series)
    : list comparison :=
  map (λ '(m1, m2),
         mkComparison m1 m2 (foldl (tally_row m1 m2) (mkTally 0 0 0) data))
      (combinations2 MAPPERS).

(** Three rows of a mapping table: the first two mappers agree on the
    first row, differ on the second, and the third row lacks an answer. *)
Definition ex_table : list series :=
  [ (λ m, if String.eqb m "Mapper_C" then None else Some "100");
    (λ m, if String.eqb m "Mapper_A" then Some "100" else Some "200");
    (λ m, if String.eqb m "Mapper_B" then None else Some "300") ].

(** ** The definitions on the example rows *)

Example split_keeps_empty_fields :
  split TAB (row ["a"; EmptyString; "b"]) = ["a"; EmptyString; "b"].
Proof. reflexivity. Qed.

Example split_of_empty_line : split TAB EmptyString = [EmptyString].
Proof. reflexivity. Qed.

Example index_out_of_range : index (split TAB ex_short) 2 = Raise IndexError.
Proof. reflexivity. Qed.

Example isa_graph_of_example_rows :
  ∃ g, createGraph ex_concepts ex_rels true = Ok g ∧
       nx.edges g !! ("100", "200") = Some "116680003" ∧
       nx.edges g !! ("300", "200") = None ∧
       nx.has_edge g "200" "100" = false.
Proof. eexists. repeat split; vm_compute; reflexivity. Qed.

Example rel_graph_of_example_rows :
  ∃ g, createGraph ex_concepts ex_rels false = Ok g ∧
       nx.edges g !! ("100", "200") = Some "116680003" ∧
       nx.edges g !! ("300", "200") = Some "363698007".
Proof. eexists. repeat split; vm_compute; reflexivity. Qed.

Example one_way_worker_gives_sentinel :
  @shortest_path_distance ex_worker_one_way nx.empty "100" "200" = NoneV ∧
  @calculate_pairwise_distances_from_graph ex_worker_one_way
    ["100"; "200"] nx.empty !! ("200", "100") = Some (Num 50).
Proof. split; vm_compute; reflexivity. Qed.

Example known_name_is_dispatched :
  @calculateSimilarity Z ex_measure (mkOntology nx.empty nx.empty)
    "Resnik" "125605004" "284003005" = Ok (Number 5%Z) ∧
  @calculateSimilarity Z ex_measure (mkOntology nx.empty nx.empty)
    "Lin" "138875005" "138875005" = Raise ZeroDivisionError.
Proof. split; reflexivity. Qed.

(** ** Lemmas on the builder *)

Lemma split_nonempty sep s : split sep s ≠ [].
Proof. destruct s as [|c s]; simpl; [done|]. by repeat case_match. Qed.

Lemma index_Ok {A} (parts : list A) i x :
  index parts i = Ok x ↔ parts !! i = Some x.
Proof. unfold index. destruct (parts !! i); split; congruence. Qed.

Lemma index_Raise {A} (parts : list A) i e :
  index parts i = Raise e ↔ e = IndexError ∧ length parts ≤ i.
Proof.
  unfold index. destruct (parts !! i) eqn:E.
  - apply lookup_lt_Some in E. split; [intros [=]|intros [_ ?]; lia].
  - apply lookup_ge_None in E. split; [intros [= <-]; done|intros [-> _]; done].
Qed.

Lemma admits_spec wo a t :
  admits wo a t = true ↔ a = "1" ∧ (wo = true → t = "116680003").
Proof.
  unfold admits. destruct wo.
  - rewrite andb_true_iff, !String.eqb_eq. naive_solver.
  - rewrite String.eqb_eq. naive_solver.
Qed.

Lemma edge_line_Ok wo g line g1 :
  edge_line wo g line = Ok g1 ↔
  ∃ a s d t, field line 2 = Some a ∧ field line 4 = Some s ∧
    field line 5 = Some d ∧ field line 7 = Some t ∧
    g1 = if admits wo a t && negb (nx.has_edge g s d)
         then nx.add_edge g s d t else g.
Proof.
  unfold edge_line, field, index, admits.
  destruct (split TAB line !! 2) as [a|]; simpl; [|naive_solver].
  destruct (split TAB line !! 4) as [s|]; simpl; [|naive_solver].
  destruct (split TAB line !! 5) as [d|]; simpl; [|naive_solver].
  destruct (split TAB line !! 7) as [t|]; simpl; [|naive_solver].
  split.
  - intros H. exists a, s, d, t. repeat split; try done.
    destruct wo; repeat case_match; simpl in *; congruence.
  - intros (a' & s' & d' & t' & [= <-] & [= <-] & [= <-] & [= <-] & ->).
    destruct wo; repeat case_match; simpl in *; congruence.
Qed.

Lemma edge_line_Raise wo g line e :
  edge_line wo g line = Raise e ↔
  e = IndexError ∧ length (split TAB line) < 8.
Proof.
  unfold edge_line, index.
  destruct (split TAB line !! 7) as [t|] eqn:E7.
  - pose proof (lookup_lt_Some _ _ _ E7) as Hlen.
    destruct (lookup_lt_is_Some_2 (split TAB line) 2) as [a ->]; [lia|].
    destruct (lookup_lt_is_Some_2 (split TAB line) 4) as [s ->]; [lia|].
    destruct (lookup_lt_is_Some_2 (split TAB line) 5) as [d ->]; [lia|].
    simpl. split; [|lia]. by repeat case_match.
  - apply lookup_ge_None in E7.
    split; [|intros [-> _]; by repeat (case_match; simpl)].
    intros H. split; [|lia].
    repeat (case_match; simpl in H); congruence.
Qed.

Lemma admitted_row_fun wo line s d t s' d' t' :
  admitted_row wo line s d t → admitted_row wo line s' d' t' →
  s = s' ∧ d = d' ∧ t = t'.
Proof.
  intros (_ & Hs & Hd & Ht & _) (_ & Hs' & Hd' & Ht' & _).
  rewrite Hs in Hs'; rewrite Hd in Hd'; rewrite Ht in Ht'.
  by simplify_eq.
Qed.

Lemma has_edge_true g u v : nx.has_edge g u v = true ↔ nx.edge g u v.
Proof. unfold nx.has_edge, nx.edge. apply bool_decide_eq_true. Qed.

Lemma has_edge_false g u v :
  nx.has_edge g u v = false ↔ nx.edges g !! (u, v) = None.
Proof.
  unfold nx.has_edge. rewrite bool_decide_eq_false, <- eq_None_not_Some.
  done.
Qed.

(** One relationship line: the label of a pair is kept when the pair has
    one, and otherwise set by an admitted row. *)
Lemma edge_line_edges wo g line g1 s d t :
  edge_line wo g line = Ok g1 →
  nx.edges g1 !! (s, d) = Some t ↔
  nx.edges g !! (s, d) = Some t ∨
  (nx.edges g !! (s, d) = None ∧ admitted_row wo line s d t).
Proof.
  intros (a & s0 & d0 & t0 & Ha & Hs & Hd & Ht & ->)%edge_line_Ok.
  destruct (admits wo a t0) eqn:Hadm; simpl.
  - apply admits_spec in Hadm as [-> Hty].
    assert (Hrow : admitted_row wo line s0 d0 t0) by done.
    destruct (nx.has_edge g s0 d0) eqn:He; simpl.
    + apply has_edge_true in He as [l Hl].
      split; [by left|]. intros [?|[Hnone Hrow']]; [done|].
      destruct (admitted_row_fun _ _ _ _ _ _ _ _ Hrow Hrow') as (-> & -> & _).
      congruence.
    + apply has_edge_false in He.
      destruct (decide ((s0, d0) = (s, d))) as [[= <- <-]|Hne].
      * rewrite lookup_insert_eq. split.
        -- intros [= <-]. by right.
        -- intros [?|[_ Hrow']]; [congruence|].
           by destruct (admitted_row_fun _ _ _ _ _ _ _ _ Hrow Hrow')
             as (_ & _ & ->).
      * rewrite lookup_insert_ne by done.
        split; [by left|]. intros [?|[_ Hrow']]; [done|].
        destruct (admitted_row_fun _ _ _ _ _ _ _ _ Hrow Hrow') as (-> & -> & _).
        done.
  - split; [by left|]. intros [?|[_ (Ha' & _ & _ & Ht' & Hty)]]; [done|].
    rewrite Ha in Ha'; rewrite Ht in Ht'. simplify_eq.
    assert (admits wo "1" t = true) by by apply admits_spec.
    congruence.
Qed.

Lemma edge_line_edges_None wo g line g1 s d :
  edge_line wo g line = Ok g1 →
  nx.edges g1 !! (s, d) = None ↔
  nx.edges g !! (s, d) = None ∧ ∀ t, ¬ admitted_row wo line s d t.
Proof.
  intros H. rewrite !eq_None_not_Some. unfold is_Some.
  setoid_rewrite (edge_line_edges _ _ _ _ _ _ _ H).
  split.
  - intros Hn. split; [intros [t Ht]; apply Hn; eauto|].
    intros t Hrow. destruct (nx.edges g !! (s, d)) eqn:E; apply Hn; eauto.
  - intros [Hn Hrow] [t [Ht|[_ Ht]]]; [apply Hn; eauto|by eapply Hrow].
Qed.

Lemma first_admitted_cons wo line rest s d t :
  first_admitted wo (line :: rest) s d t ↔
  admitted_row wo line s d t ∨
  ((∀ t', ¬ admitted_row wo line s d t') ∧ first_admitted wo rest s d t).
Proof.
  split.
  - intros (before & x & after & Heq & Hrow & Hbefore).
    destruct before as [|y before]; simplify_eq/=; [by left|].
    right. split.
    + intros t'. apply Hbefore. by left.
    + exists before, x, after. split; [done|split; [done|]].
      intros z t' Hz. apply Hbefore. by right.
  - intros [Hrow|[Hno (before & x & after & -> & Hrow & Hbefore)]].
    + exists [], line, rest. split; [done|split; [done|]].
      intros x t' Hx. by apply elem_of_nil in Hx.
    + exists (line :: before), x, after. split; [done|split; [done|]].
      intros z t' [->|Hz]%elem_of_cons; [apply Hno|by apply Hbefore].
Qed.

Lemma first_admitted_nil wo s d t : ¬ first_admitted wo [] s d t.
Proof. intros (before & x & after & Heq & _). by destruct before. Qed.

(** The labels after the whole loop. *)
Lemma builtEdge_edges wo lines : ∀ g0 g s d t,
  builtEdge g0 lines wo = Ok g →
  nx.edges g !! (s, d) = Some t ↔
  nx.edges g0 !! (s, d) = Some t ∨
  (nx.edges g0 !! (s, d) = None ∧ first_admitted wo lines s d t).
Proof.
  induction lines as [|line rest IH]; intros g0 g s d t; simpl.
  - intros [= ->]. split; [by left|].
    intros [?|[_ ?%first_admitted_nil]]; done.
  - destruct (edge_line wo g0 line) as [g1|e] eqn:E1; simpl; [|done].
    intros Hrest. rewrite (IH _ _ _ _ _ Hrest).
    rewrite (edge_line_edges _ _ _ _ _ _ _ E1).
    rewrite (edge_line_edges_None _ _ _ _ _ _ E1).
    rewrite first_admitted_cons. naive_solver.
Qed.

Lemma admitted_row_cases wo line s d :
  (∃ t, admitted_row wo line s d t) ∨ (∀ t, ¬ admitted_row wo line s d t).
Proof.
  destruct (field line 7) as [t0|] eqn:E7.
  - destruct (decide (admitted_row wo line s d t0)) as [Hrow|Hno]; [eauto|].
    right. intros t Hrow. apply Hno.
    destruct Hrow as (? & ? & ? & Ht & ?). rewrite E7 in Ht. by simplify_eq.
  - right. intros t (? & ? & ? & Ht & ?). congruence.
Qed.

Lemma first_admitted_exists wo lines s d :
  (∃ line t, line ∈ lines ∧ admitted_row wo line s d t) ↔
  ∃ t, first_admitted wo lines s d t.
Proof.
  split.
  - induction lines as [|x rest IH].
    + intros (line & t & []%elem_of_nil & _).
    + intros (line & t & Hin & Hrow).
      destruct (admitted_row_cases wo x s d) as [[t' Hx]|Hno].
      * exists t'. apply first_admitted_cons. by left.
      * apply elem_of_cons in Hin as [->|Hin]; [by destruct (Hno t)|].
        destruct IH as [t' Ht']; [eauto|].
        exists t'. apply first_admitted_cons. by right.
  - intros (t & before & line & after & -> & Hrow & _).
    exists line, t. split; [|done]. set_solver.
Qed.

(** One relationship line: an admitted row makes its end points nodes. *)
Lemma edge_line_nodes wo g line g1 :
  edge_line wo g line = Ok g1 → closed g →
  closed g1 ∧
  ∀ c, c ∈ nx.nodes g1 ↔
       c ∈ nx.nodes g ∨ ∃ s d t, admitted_row wo line s d t ∧ (c = s ∨ c = d).
Proof.
  intros (a & s0 & d0 & t0 & Ha & Hs & Hd & Ht & ->)%edge_line_Ok Hcl.
  destruct (admits wo a t0) eqn:Hadm; simpl.
  - apply admits_spec in Hadm as [-> Hty].
    assert (Hrow : admitted_row wo line s0 d0 t0) by done.
    destruct (nx.has_edge g s0 d0) eqn:He; simpl.
    + split; [done|]. intros c. split; [by left|].
      intros [?|(s & d & t & Hrow' & Hc)]; [done|].
      destruct (admitted_row_fun _ _ _ _ _ _ _ _ Hrow Hrow') as (<- & <- & _).
      apply has_edge_true, Hcl in He. naive_solver.
    + split.
      * intros u v [l Hl]. simpl in *.
        destruct (decide ((s0, d0) = (u, v))) as [[= <- <-]|Hne].
        -- set_solver.
        -- rewrite lookup_insert_ne in Hl by done.
           destruct (Hcl u v) as [? ?]; [by exists l|]. set_solver.
      * intros c. simpl. rewrite elem_of_union, elem_of_union, !elem_of_singleton.
        split.
        -- intros [[->| ->]|?]; [right|right|by left];
             exists s0, d0, t0; eauto.
        -- intros [?|(s & d & t & Hrow' & Hc)]; [by right|].
           destruct (admitted_row_fun _ _ _ _ _ _ _ _ Hrow Hrow')
             as (<- & <- & _).
           left. done.
  - split; [done|]. intros c. split; [by left|].
    intros [?|(s & d & t & (Ha' & _ & _ & Ht' & Hty) & _)]; [done|].
    rewrite Ha in Ha'; rewrite Ht in Ht'. simplify_eq.
    assert (admits wo "1" t = true) by by apply admits_spec.
    congruence.
Qed.

Lemma builtEdge_nodes wo lines : ∀ g0 g,
  builtEdge g0 lines wo = Ok g → closed g0 →
  closed g ∧
  ∀ c, c ∈ nx.nodes g ↔
       c ∈ nx.nodes g0 ∨
       ∃ line s d t, line ∈ lines ∧ admitted_row wo line s d t ∧
                     (c = s ∨ c = d).
Proof.
  induction lines as [|line rest IH]; intros g0 g; simpl.
  - intros [= ->] Hcl. split; [done|]. intros c. split; [by left|].
    intros [?|(line & s & d & t & []%elem_of_nil & _)]; done.
  - destruct (edge_line wo g0 line) as [g1|e] eqn:E1; simpl; [|done].
    intros Hrest Hcl.
    destruct (edge_line_nodes _ _ _ _ E1 Hcl) as [Hcl1 H1].
    destruct (IH _ _ Hrest Hcl1) as [Hclg Hg].
    split; [done|]. intros c. rewrite Hg, H1.
    setoid_rewrite elem_of_cons. naive_solver.
Qed.

Lemma builtEdge_Raise wo lines : ∀ g0 e,
  builtEdge g0 lines wo = Raise e ↔
  e = IndexError ∧ ∃ line, line ∈ lines ∧ length (split TAB line) < 8.
Proof.
  induction lines as [|line rest IH]; intros g0 e; simpl.
  - split; [done|]. intros (_ & line & []%elem_of_nil & _).
  - setoid_rewrite elem_of_cons.
    destruct (edge_line wo g0 line) as [g1|e1] eqn:E1; simpl.
    + rewrite IH. split; [naive_solver|].
      intros (-> & x & [->|Hx] & Hlen); [|eauto].
      assert (edge_line wo g0 line = Raise IndexError)
        by by apply edge_line_Raise.
      congruence.
    + apply edge_line_Raise in E1 as [-> Hlen]. naive_solver.
Qed.

Lemma node_line_Ok g line g1 :
  node_line g line = Ok g1 ↔
  ∃ c a, field line 0 = Some c ∧ field line 2 = Some a ∧
         g1 = if String.eqb a "1" then nx.add_node g c else g.
Proof.
  unfold node_line, field, index.
  destruct (split TAB line !! 0) as [c|]; simpl; [|naive_solver].
  destruct (split TAB line !! 2) as [a|]; simpl; [|naive_solver].
  split.
  - intros H. exists c, a. by case_match; simplify_eq.
  - intros (c' & a' & [= <-] & [= <-] & ->). by case_match.
Qed.

Lemma node_line_Raise g line e :
  node_line g line = Raise e ↔
  e = IndexError ∧ length (split TAB line) < 3.
Proof.
  unfold node_line, index.
  destruct (split TAB line !! 2) as [a|] eqn:E2.
  - pose proof (lookup_lt_Some _ _ _ E2) as Hlen.
    destruct (lookup_lt_is_Some_2 (split TAB line) 0) as [c ->]; [lia|].
    simpl. split; [|lia]. by case_match.
  - apply lookup_ge_None in E2.
    split; [|intros [-> _]; by repeat (case_match; simpl)].
    intros H. split; [|lia].
    repeat (case_match; simpl in H); congruence.
Qed.

Lemma builtNode_nodes lines : ∀ g0 g,
  builtNode g0 lines = Ok g →
  nx.edges g = nx.edges g0 ∧
  ∀ c, c ∈ nx.nodes g ↔
       c ∈ nx.nodes g0 ∨ ∃ line, line ∈ lines ∧ active_concept_row line c.
Proof.
  induction lines as [|line rest IH]; intros g0 g; simpl.
  - intros [= ->]. split; [done|]. intros c. split; [by left|].
    intros [?|(line & []%elem_of_nil & _)]; done.
  - destruct (node_line g0 line) as [g1|e] eqn:E1; simpl; [|done].
    intros [Hedges Hnodes]%IH.
    apply node_line_Ok in E1 as (c0 & a & Hc & Ha & ->).
    unfold active_concept_row. setoid_rewrite elem_of_cons.
    destruct (String.eqb a "1") eqn:Hact.
    + apply String.eqb_eq in Hact as ->. split; [done|].
      intros c. rewrite Hnodes. simpl. rewrite elem_of_union, elem_of_singleton.
      split.
      * intros [[->|?]|(x & ? & ?)]; [right; exists line|by left|right; exists x]; eauto.
      * intros [?|(x & [Heq|?] & Hx0 & Hx2)].
        -- left. by right.
        -- subst x. rewrite Hc in Hx0. left. left. congruence.
        -- right. exists x. by repeat split.
    + apply String.eqb_neq in Hact. split; [done|].
      intros c. rewrite Hnodes. split.
      * intros [?|(x & ? & ?)]; [by left|right; exists x; eauto].
      * intros [?|(x & [Heq|?] & Hx0 & Hx2)].
        -- by left.
        -- subst x. rewrite Ha in Hx2. congruence.
        -- right. exists x. by repeat split.
Qed.

Lemma builtNode_Raise lines : ∀ g0 e,
  builtNode g0 lines = Raise e ↔
  e = IndexError ∧ ∃ line, line ∈ lines ∧ length (split TAB line) < 3.
Proof.
  induction lines as [|line rest IH]; intros g0 e; simpl.
  - split; [done|]. intros (_ & line & []%elem_of_nil & _).
  - setoid_rewrite elem_of_cons.
    destruct (node_line g0 line) as [g1|e1] eqn:E1; simpl.
    + rewrite IH. split; [naive_solver|].
      intros (-> & x & [->|Hx] & Hlen); [|eauto].
      assert (node_line g0 line = Raise IndexError)
        by by apply node_line_Raise.
      congruence.
    + apply node_line_Raise in E1 as [-> Hlen]. naive_solver.
Qed.

Lemma closed_empty_edges g : nx.edges g = ∅ → closed g.
Proof. intros He u v [l Hl]. rewrite He in Hl. by rewrite lookup_empty in Hl. Qed.

Lemma builtEdge_edge wo lines g0 g s d :
  nx.edges g0 = ∅ → builtEdge g0 lines wo = Ok g →
  nx.edge g s d ↔ admitted_rel wo lines s d.
Proof.
  intros Hempty Hbuilt. unfold nx.edge, is_Some, admitted_rel.
  setoid_rewrite (builtEdge_edges _ _ _ _ _ _ _ Hbuilt).
  rewrite Hempty, lookup_empty, first_admitted_exists.
  split; [intros [t [?|[_ ?]]]; [done|eauto]|intros [t ?]; eauto].
Qed.

Lemma admitted_row_weaken line s d t :
  admitted_row true line s d t → admitted_row false line s d t.
Proof. intros (? & ? & ? & ? & _). by repeat split. Qed.

Lemma tc_impl {A} (R R' : relation A) :
  (∀ x y, R x y → R' x y) → ∀ x y, tc R x y → tc R' x y.
Proof.
  intros HR x y Hxy.
  induction Hxy as [x y Hxy|x y z Hxy _ IH]; [apply tc_once; auto|].
  eapply tc_l; eauto.
Qed.

Lemma createGraph_Ok Lines0 Lines1 wo g :
  createGraph Lines0 Lines1 wo = Ok g ↔
  ∃ g0, builtNode nx.empty Lines0 = Ok g0 ∧ builtEdge g0 Lines1 wo = Ok g.
Proof.
  unfold createGraph.
  destruct (builtNode nx.empty Lines0) as [g0|e]; simpl; [|naive_solver].
  split; [eauto|]. by intros (? & [= <-] & ?).
Qed.

(** ** The builder: nodes *)

(** C1, as the code has it: the nodes of a built graph are the ids of the
    concept rows whose active flag is "1" together with the sources and
    destinations of the admitted relationship rows, since [add_edge] makes
    nodes of both end points. *)
Theorem createGraph_nodes (Lines0 Lines1 : list string) (wo : bool)
    (g : nx.DiGraph) :
  createGraph Lines0 Lines1 wo = Ok g →
  ∀ c, c ∈ nx.nodes g ↔
       (∃ line, line ∈ Lines0 ∧ active_concept_row line c) ∨
       (∃ line s d t, line ∈ Lines1 ∧ admitted_row wo line s d t ∧
                      (c = s ∨ c = d)).
Proof.
  intros (g0 & Hnodes & Hedges)%createGraph_Ok c.
  apply builtNode_nodes in Hnodes as [He Hn].
  apply builtEdge_nodes in Hedges as [_ Hg].
  - rewrite Hg, Hn. simpl. set_solver.
  - by apply closed_empty_edges.
Qed.

Lemma createGraph_nodes_witness :
  ∃ g, createGraph ex_concepts ex_rels false = Ok g ∧
       ("200" ∈ nx.nodes g ↔
        (∃ line, line ∈ ex_concepts ∧ active_concept_row line "200") ∨
        (∃ line s d t, line ∈ ex_rels ∧ admitted_row false line s d t ∧
                       ("200" = s ∨ "200" = d))).
Proof.
  eexists. split; [vm_compute; reflexivity|].
  apply (createGraph_nodes ex_concepts ex_rels false). vm_compute; reflexivity.
Defined.

(** C1, the claim as it is written fails: concept 100 has the active flag
    "0" in its only concept row, concept 200 has no concept row, and both
    are nodes because an admitted relationship row mentions them. *)
Lemma inactive_concept_becomes_node :
  ∃ g, createGraph ex_concepts ex_rels true = Ok g ∧
       field (row ["100"; "20230430"; "0"; "m"; "d"]) 2 = Some "0" ∧
       "100" ∈ nx.nodes g ∧ "200" ∈ nx.nodes g ∧
       (¬ ∃ line, line ∈ ex_concepts ∧ active_concept_row line "100") ∧
       (¬ ∃ line, line ∈ ex_concepts ∧ active_concept_row line "200").
Proof.
  eexists. split; [vm_compute; reflexivity|].
  split; [reflexivity|].
  split; [by apply (bool_decide_unpack _)|].
  split; [by apply (bool_decide_unpack _)|].
  split; intros (line & Hin & H0 & H2);
    apply list_elem_of_In in Hin; simpl in Hin;
    destruct Hin as [<-|[<-|[]]]; vm_compute in H0, H2; congruence.
Qed.

(** ** The builder: rows with too few fields *)

(** C2, as the code has it: a line with fewer than three fields makes
    [builtNode] raise [IndexError], a line with fewer than eight fields
    makes [builtEdge] raise [IndexError], and nothing else makes them
    raise; further fields are ignored. *)
Theorem builder_raises_on_short_row (g : nx.DiGraph) (lines : list string)
    (wo : bool) :
  (∀ e, builtNode g lines = Raise e ↔
        e = IndexError ∧ ∃ line, line ∈ lines ∧ length (split TAB line) < 3) ∧
  (∀ e, builtEdge g lines wo = Raise e ↔
        e = IndexError ∧ ∃ line, line ∈ lines ∧ length (split TAB line) < 8).
Proof. split; intros e; [apply builtNode_Raise|apply builtEdge_Raise]. Qed.

(** C2, the claim as it is written fails: one line with a single field in
    front of a good row aborts both loops, where skipping it would have
    given the graph of the good row. *)
Lemma short_row_aborts_build :
  length (split TAB ex_short) = 1 ∧
  builtNode nx.empty (ex_short :: ex_concepts) = Raise IndexError ∧
  Py.raises (builtNode nx.empty ex_concepts) = false ∧
  builtEdge nx.empty (ex_short :: ex_rels) true = Raise IndexError ∧
  builtEdge nx.empty (ex_short :: ex_rels) false = Raise IndexError ∧
  Py.raises (builtEdge nx.empty ex_rels true) = false.
Proof. repeat split; vm_compute; reflexivity. Qed.

(** ** The builder: edges *)

(** C3: after [builtEdge] on a graph without edges, [s → d] is an edge iff
    some row has active "1" (index 2), source [s] (index 4), destination [d]
    (index 5) and, for the is-a graph, type "116680003" (index 7); the label
    of the pair is the type of the first such row; and a further admitted
    row for a pair that is an edge leaves the graph as it is. *)
Theorem builtEdge_admission (wo : bool) (lines : list string)
    (g0 g : nx.DiGraph) :
  nx.edges g0 = ∅ →
  builtEdge g0 lines wo = Ok g →
  (∀ s d, nx.has_edge g s d = true ↔
          ∃ line t, line ∈ lines ∧
            field line 2 = Some "1" ∧ field line 4 = Some s ∧
            field line 5 = Some d ∧ field line 7 = Some t ∧
            (wo = true → t = "116680003")) ∧
  (∀ s d t, nx.edges g !! (s, d) = Some t ↔ first_admitted wo lines s d t) ∧
  (∀ line s d t, admitted_row wo line s d t → nx.has_edge g s d = true →
                 edge_line wo g line = Ok g).
Proof.
  intros Hempty Hbuilt. split; [|split].
  - intros s d. rewrite has_edge_true.
    apply (builtEdge_edge _ _ _ _ _ _ Hempty Hbuilt).
  - intros s d t. rewrite (builtEdge_edges _ _ _ _ _ _ _ Hbuilt).
    rewrite Hempty, lookup_empty. naive_solver.
  - intros line s d t (Ha & Hs & Hd & Ht & Hty) He.
    apply edge_line_Ok. exists "1", s, d, t.
    rewrite He, andb_false_r. done.
Qed.

Lemma builtEdge_admission_witness :
  ∃ g, builtEdge nx.empty (ex_rels ++ ex_rels) true = Ok g ∧
       (nx.has_edge g "100" "200" = true ↔
        ∃ line t, line ∈ ex_rels ++ ex_rels ∧
          field line 2 = Some "1" ∧ field line 4 = Some "100" ∧
          field line 5 = Some "200" ∧ field line 7 = Some t ∧
          (true = true → t = "116680003")).
Proof.
  eexists. split; [vm_compute; reflexivity|].
  refine (proj1 (builtEdge_admission true (ex_rels ++ ex_rels) nx.empty _
                   _ _) "100" "200");
    [reflexivity|vm_compute; reflexivity].
Defined.

(** C8: on the same rows, when the is-a build returns so does the full
    build, and every edge of the is-a graph is an edge of the relation
    graph. *)
Theorem isa_edges_in_rel_edges (Lines0 Lines1 : list string)
    (g_isa : nx.DiGraph) :
  createGraph Lines0 Lines1 true = Ok g_isa →
  ∃ g_rel, createGraph Lines0 Lines1 false = Ok g_rel ∧
           ∀ u v, nx.has_edge g_isa u v = true → nx.has_edge g_rel u v = true.
Proof.
  intros (g0 & Hnodes & Hisa)%createGraph_Ok.
  assert (Hempty : nx.edges g0 = ∅)
    by (by apply builtNode_nodes in Hnodes as [-> _]).
  destruct (builtEdge g0 Lines1 false) as [g_rel|e] eqn:Hrel.
  - exists g_rel. split; [apply createGraph_Ok; eauto|].
    intros u v. rewrite !has_edge_true.
    rewrite (builtEdge_edge _ _ _ _ _ _ Hempty Hisa).
    rewrite (builtEdge_edge _ _ _ _ _ _ Hempty Hrel).
    intros (line & t & Hin & Hrow).
    exists line, t. split; [done|]. by apply admitted_row_weaken.
  - apply builtEdge_Raise in Hrel.
    apply (proj2 (builtEdge_Raise true Lines1 g0 e)) in Hrel. congruence.
Qed.

Lemma isa_edges_in_rel_edges_witness :
  ∃ g_isa g_rel,
    createGraph ex_concepts ex_rels true = Ok g_isa ∧
    createGraph ex_concepts ex_rels false = Ok g_rel ∧
    ∀ u v, nx.has_edge g_isa u v = true → nx.has_edge g_rel u v = true.
Proof.
  eexists.
  destruct (isa_edges_in_rel_edges ex_concepts ex_rels _
              ltac:(vm_compute; reflexivity)) as (g_rel & Hrel & Hsub).
  exists g_rel. split; [reflexivity|]. split; assumption.
Defined.

(** C9, as the code has it: the builder runs no cycle check, so the is-a
    graph has a directed cycle exactly when the admitted subsumption rows
    have one. *)
Theorem isa_graph_acyclic_iff (Lines0 Lines1 : list string) (g : nx.DiGraph) :
  createGraph Lines0 Lines1 true = Ok g →
  nx.acyclic g ↔ ∀ u, ¬ tc (admitted_rel true Lines1) u u.
Proof.
  intros (g0 & Hnodes & Hisa)%createGraph_Ok.
  assert (Hempty : nx.edges g0 = ∅)
    by (by apply builtNode_nodes in Hnodes as [-> _]).
  pose proof (λ s d, builtEdge_edge true Lines1 g0 g s d Hempty Hisa) as Hedge.
  unfold nx.acyclic.
  split; intros Hac u Hcycle; apply (Hac u); revert Hcycle;
    apply tc_impl; intros x y; apply Hedge.
Qed.

Lemma isa_graph_acyclic_iff_witness :
  ∃ g, createGraph ex_concepts ex_rels true = Ok g ∧
       (nx.acyclic g ↔ ∀ u, ¬ tc (admitted_rel true ex_rels) u u).
Proof.
  eexists. split; [vm_compute; reflexivity|].
  apply (isa_graph_acyclic_iff ex_concepts ex_rels). vm_compute; reflexivity.
Defined.

(** C9, the claim as it is written fails: two subsumption rows that point
    at each other are both admitted, and the is-a graph has the cycle
    100 → 200 → 100. *)
Lemma isa_graph_cycle :
  ∃ g, createGraph ex_concepts ex_cycle_rels true = Ok g ∧ ¬ nx.acyclic g.
Proof.
  eexists. split; [vm_compute; reflexivity|].
  intros Hac. apply (Hac "100").
  apply (tc_l _ _ "200"); [|apply tc_once];
    by apply (bool_decide_unpack _).
Qed.

(** ** Lemmas on loops *)

Lemma foldl_invariant {A B} (f : B → A → B) (Q : B → Prop) (l : list A) :
  (∀ b x, x ∈ l → Q b → Q (f b x)) → ∀ b, Q b → Q (foldl f b l).
Proof.
  induction l as [|y l IH]; intros Hf b Hb; simpl; [done|].
  apply IH.
  - intros b' x Hx. apply Hf. by right.
  - apply Hf; [by left|done].
Qed.

Lemma foldl_reaches {A B} (f : B → A → B) (Q : B → Prop) (l : list A) x :
  x ∈ l →
  (∀ b y, y ∈ l → Q b → Q (f b y)) →
  (∀ b, Q (f b x)) →
  ∀ b, Q (foldl f b l).
Proof.
  induction l as [|y l IH]; intros Hx Hf Hfx b; simpl.
  - by apply elem_of_nil in Hx.
  - apply elem_of_cons in Hx as [->|Hx].
    + apply foldl_invariant; [|apply Hfx].
      intros b' z Hz. apply Hf. by right.
    + apply IH; [done| |done].
      intros b' z Hz. apply Hf. by right.
Qed.

Lemma elem_of_enumerate {A} (l : list A) i x :
  (i, x) ∈ enumerate l ↔ l !! i = Some x.
Proof.
  unfold enumerate. rewrite elem_of_lookup_imap. split.
  - by intros (j & y & [= -> ->] & Hl).
  - intros Hl. by exists i, x.
Qed.

(** ** Lemmas on the distances *)

Section DistanceFacts.
Context `{Worker} (graph : nx.DiGraph).

Lemma shortest_path_distance_same c :
  shortest_path_distance graph c c = Int 0.
Proof. unfold shortest_path_distance. by rewrite String.eqb_refl. Qed.

Lemma shortest_path_distance_comm c1 c2 :
  shortest_path_distance graph c1 c2 = shortest_path_distance graph c2 c1.
Proof.
  unfold shortest_path_distance. rewrite (String.eqb_sym c2 c1).
  destruct (String.eqb c1 c2); [done|].
  destruct (length_of_shortest_path graph SNOMED_ROOT c1 c2) as [[x|]|e1];
    destruct (length_of_shortest_path graph SNOMED_ROOT c2 c1) as [[y|]|e2];
    simpl; try done.
  by rewrite Z.min_comm.
Qed.

(** When the symmetrized distance is [None]: one of the two queries
    raised, or the two results cannot be compared. *)
Lemma shortest_path_distance_None c1 c2 :
  shortest_path_distance graph c1 c2 = NoneV ↔
  c1 ≠ c2 ∧
  ¬ ∃ x y, length_of_shortest_path graph SNOMED_ROOT c1 c2 = Ok (Int x) ∧
           length_of_shortest_path graph SNOMED_ROOT c2 c1 = Ok (Int y).
Proof.
  unfold shortest_path_distance.
  destruct (String.eqb c1 c2) eqn:E.
  - apply String.eqb_eq in E. naive_solver.
  - apply String.eqb_neq in E.
    destruct (length_of_shortest_path graph SNOMED_ROOT c1 c2) as [[x|]|e1];
      destruct (length_of_shortest_path graph SNOMED_ROOT c2 c1) as [[y|]|e2];
      simpl; naive_solver.
Qed.

Lemma pairwise_cell_settled m i c1 j c2 k :
  (i = j → c1 = c2) → settled graph m k →
  settled graph (pairwise_cell graph m i c1 j c2) k.
Proof.
  intros Hij Hk. unfold pairwise_cell, settled in *.
  destruct (i <=? j) eqn:Hle; [|done].
  destruct (i =? j) eqn:Heq.
  - apply Nat.eqb_eq, Hij in Heq as <-.
    destruct (decide ((c1, c1) = k)) as [<-|Hne].
    + rewrite lookup_insert_eq. simpl.
      by rewrite shortest_path_distance_same.
    + by rewrite lookup_insert_ne.
  - assert (∀ v, stored (shortest_path_distance graph c1 c2) = v →
              <[(c2, c1) := v]> (<[(c1, c2) := v]> m) !! k
              = Some (stored (shortest_path_distance graph k.1 k.2)))
      as Hboth.
    { intros v <-.
      destruct (decide ((c2, c1) = k)) as [<-|Hne2].
      { rewrite lookup_insert_eq. simpl.
        by rewrite shortest_path_distance_comm. }
      rewrite lookup_insert_ne by done.
      destruct (decide ((c1, c2) = k)) as [<-|Hne1].
      { by rewrite lookup_insert_eq. }
      by rewrite lookup_insert_ne. }
    destruct (shortest_path_distance graph c1 c2) eqn:Hd;
      by apply Hboth.
Qed.

Lemma pairwise_cell_writes m i c1 j c2 :
  (i = j → c1 = c2) → i ≤ j →
  settled graph (pairwise_cell graph m i c1 j c2) (c1, c2) ∧
  settled graph (pairwise_cell graph m i c1 j c2) (c2, c1).
Proof.
  intros Hij Hle. unfold pairwise_cell, settled.
  apply Nat.leb_le in Hle as ->.
  destruct (i =? j) eqn:Heq.
  - apply Nat.eqb_eq, Hij in Heq as <-.
    rewrite lookup_insert_eq. simpl.
    by rewrite shortest_path_distance_same.
  - simpl. rewrite (shortest_path_distance_comm c2 c1).
    destruct (shortest_path_distance graph c1 c2) eqn:Hd; simpl;
      (split; [|by rewrite lookup_insert_eq]);
      (destruct (decide ((c2, c1) = (c1, c2))) as [->|Hne];
         [by rewrite lookup_insert_eq
         |by rewrite lookup_insert_ne, lookup_insert_eq]).
Qed.

(** Every cell of the matrix of [calculate_pairwise_distances_from_graph]
    whose labels are among the concepts. *)
Lemma pairwise_lookup concepts a b :
  a ∈ concepts → b ∈ concepts →
  calculate_pairwise_distances_from_graph concepts graph !! (a, b)
  = Some (stored (shortest_path_distance graph a b)).
Proof.
  intros [ia Ha]%list_elem_of_lookup [ib Hb]%list_elem_of_lookup.
  unfold calculate_pairwise_distances_from_graph.
  set (inner := λ (i : nat) (c1 : string) m' (p : nat * string),
         let '(j, c2) := p in pairwise_cell graph m' i c1 j c2).
  set (outer := λ m (p : nat * string),
         let '(i, c1) := p in foldl (inner i c1) m (enumerate concepts)).
  assert (Hsame : ∀ i c1 j c2,
    (i, c1) ∈ enumerate concepts → (j, c2) ∈ enumerate concepts →
    i = j → c1 = c2).
  { intros i c1 j c2 Hi%elem_of_enumerate Hj%elem_of_enumerate ->.
    congruence. }
  assert (Hkeep : ∀ k m p, p ∈ enumerate concepts →
    settled graph m k → settled graph (outer m p) k).
  { intros k m [i c1] Hp Hm. simpl.
    apply (foldl_invariant _ (λ m, settled graph m k)); [|done].
    intros m' [j c2] Hq Hm'. simpl. apply pairwise_cell_settled; eauto. }
  change (settled graph (foldl outer (frame concepts (Num 0)) (enumerate concepts))
            (a, b)).
  destruct (decide (ia ≤ ib)) as [Hle|Hgt].
  - apply (foldl_reaches _ (λ m, settled graph m (a, b)) _ (ia, a));
      [by apply elem_of_enumerate|by apply Hkeep|].
    intros m. simpl.
    apply (foldl_reaches _ (λ m, settled graph m (a, b)) _ (ib, b));
      [by apply elem_of_enumerate| |].
    + intros m' [j c2] Hq Hm'. simpl. apply pairwise_cell_settled; [|done].
      apply Hsame; [by apply elem_of_enumerate|done].
    + intros m'. simpl. apply pairwise_cell_writes; [|done].
      apply Hsame; by apply elem_of_enumerate.
  - apply (foldl_reaches _ (λ m, settled graph m (a, b)) _ (ib, b));
      [by apply elem_of_enumerate|by apply Hkeep|].
    intros m. simpl.
    apply (foldl_reaches _ (λ m, settled graph m (a, b)) _ (ia, a));
      [by apply elem_of_enumerate| |].
    + intros m' [j c2] Hq Hm'. simpl. apply pairwise_cell_settled; [|done].
      apply Hsame; [by apply elem_of_enumerate|done].
    + intros m'. simpl. apply pairwise_cell_writes; [|lia].
      apply Hsame; by apply elem_of_enumerate.
Qed.

(** Every cell of the matrix of [build_distance_matrix] whose labels are
    among the concepts. *)
Lemma build_cell_lookup m c1 c2 k :
  build_cell graph m c1 c2 !! k
  = if decide ((c1, c2) = k) then Some (built graph c1 c2) else m !! k.
Proof.
  unfold build_cell, built.
  destruct (length_of_shortest_path graph SNOMED_ROOT c1 c2);
    by rewrite lookup_insert.
Qed.

Lemma build_lookup concept_list a b :
  a ∈ concept_list → b ∈ concept_list →
  build_distance_matrix graph concept_list !! (a, b) = Some (built graph a b).
Proof.
  intros Ha Hb. unfold build_distance_matrix.
  set (Q := λ m : gmap (string * string) cell,
         m !! (a, b) = Some (built graph a b)).
  assert (Hcell : ∀ m c1 c2, Q m → Q (build_cell graph m c1 c2)).
  { intros m c1 c2 Hm. unfold Q. rewrite build_cell_lookup.
    case_decide as Hk; [by simplify_eq|done]. }
  apply (foldl_reaches _ Q _ a); [done| |].
  - intros m c1 _ Hm. apply (foldl_invariant _ Q); [|done].
    intros m' c2 _. apply Hcell.
  - intros m. apply (foldl_reaches _ Q _ b); [done| |].
    + intros m' c2 _. apply Hcell.
    + intros m'. unfold Q. rewrite build_cell_lookup. by rewrite decide_True.
Qed.

End DistanceFacts.

(** ** The distances *)

(** C6: the symmetrized distance does not depend on the order of the two
    concepts, whatever the directed query answers or raises. *)
Theorem shortest_path_distance_symmetric (W : Worker) (graph : nx.DiGraph)
    (c1 c2 : string) :
  shortest_path_distance graph c1 c2 = shortest_path_distance graph c2 c1.
Proof. apply shortest_path_distance_comm. Qed.

(** C7: a concept of the graph is at distance 0 from itself, and every
    diagonal cell of the matrix of
    [calculate_pairwise_distances_from_graph] holds 0. *)
Theorem distance_to_self_is_zero (W : Worker) (graph : nx.DiGraph)
    (concepts : list string) :
  (∀ c, c ∈ nx.nodes graph → shortest_path_distance graph c c = Int 0) ∧
  (∀ c, c ∈ concepts →
        calculate_pairwise_distances_from_graph concepts graph !! (c, c)
        = Some (Num 0)).
Proof.
  split.
  - intros c _. apply shortest_path_distance_same.
  - intros c Hc. rewrite pairwise_lookup by done.
    by rewrite shortest_path_distance_same.
Qed.

Lemma distance_to_self_is_zero_witness :
  ∃ g, createGraph ex_concepts ex_rels true = Ok g ∧
       "300" ∈ nx.nodes g ∧ "300" ∈ ["100"; "300"; "100"] ∧
       @shortest_path_distance ex_worker_one_way g "300" "300" = Int 0 ∧
       @calculate_pairwise_distances_from_graph ex_worker_one_way
         ["100"; "300"; "100"] g !! ("300", "300") = Some (Num 0).
Proof.
  eexists. split; [vm_compute; reflexivity|].
  assert (H300 : "300" ∈ ["100"; "300"; "100"])
    by by apply (bool_decide_unpack _).
  split; [by apply (bool_decide_unpack _)|]. split; [exact H300|].
  split.
  - apply (proj1 (distance_to_self_is_zero ex_worker_one_way _
                    ["100"; "300"; "100"])).
    by apply (bool_decide_unpack _).
  - apply (proj2 (distance_to_self_is_zero ex_worker_one_way _
                    ["100"; "300"; "100"])).
    exact H300.
Defined.

(** C10: with equal arguments the result is 0 for any id, node or not, and
    neither the graph nor the directed query has a say in it. *)
Theorem shortest_path_distance_equal_arguments (W W' : Worker)
    (graph graph' : nx.DiGraph) (c : string) :
  @shortest_path_distance W graph c c = Int 0 ∧
  @shortest_path_distance W graph c c = @shortest_path_distance W' graph' c c.
Proof.
  unfold shortest_path_distance. rewrite String.eqb_refl.
  split; reflexivity.
Qed.

(** C4, as the code has it: for two distinct concepts of the list with a
    directed query that raises, [calculate_pairwise_distances_from_graph]
    stores 50 in both symmetric cells, and [build_distance_matrix] stores
    infinity in the cell of each ordered pair whose query raised; neither
    value is the distance 0. *)
Theorem unreachable_pair_cells (W : Worker) (graph : nx.DiGraph)
    (concepts : list string) (c1 c2 : string) :
  c1 ∈ concepts → c2 ∈ concepts → c1 ≠ c2 →
  Py.raises (length_of_shortest_path graph SNOMED_ROOT c1 c2) = true ∨
  Py.raises (length_of_shortest_path graph SNOMED_ROOT c2 c1) = true →
  calculate_pairwise_distances_from_graph concepts graph !! (c1, c2)
    = Some (Num 50) ∧
  calculate_pairwise_distances_from_graph concepts graph !! (c2, c1)
    = Some (Num 50) ∧
  (Py.raises (length_of_shortest_path graph SNOMED_ROOT c1 c2) = true →
   build_distance_matrix graph concepts !! (c1, c2) = Some Inf) ∧
  (Py.raises (length_of_shortest_path graph SNOMED_ROOT c2 c1) = true →
   build_distance_matrix graph concepts !! (c2, c1) = Some Inf) ∧
  Num 50 ≠ Num 0 ∧ Inf ≠ Num 0.
Proof.
  intros H1 H2 Hne Hraise.
  assert (Hnone : shortest_path_distance graph c1 c2 = NoneV).
  { apply shortest_path_distance_None. split; [done|].
    intros (x & y & Hx & Hy). rewrite Hx, Hy in Hraise. naive_solver. }
  rewrite !pairwise_lookup, !build_lookup by done.
  rewrite (shortest_path_distance_comm _ c2 c1), Hnone. unfold built.
  repeat split; try done.
  - by destruct (length_of_shortest_path graph SNOMED_ROOT c1 c2).
  - by destruct (length_of_shortest_path graph SNOMED_ROOT c2 c1).
Qed.

Lemma unreachable_pair_cells_witness :
  let m := @calculate_pairwise_distances_from_graph ex_worker_one_way
             ["100"; "200"; "300"] nx.empty in
  m !! ("100", "200") = Some (Num 50) ∧ m !! ("200", "100") = Some (Num 50).
Proof.
  destruct (unreachable_pair_cells ex_worker_one_way nx.empty
              ["100"; "200"; "300"] "100" "200") as (Hab & Hba & _).
  - by apply (bool_decide_unpack _).
  - by apply (bool_decide_unpack _).
  - by apply (bool_decide_unpack _).
  - right. reflexivity.
  - split; [exact Hab|exact Hba].
Defined.

(** C4, the claim as it is written fails for [build_distance_matrix]: a
    query that raises leaves infinity in its cell, not 50, and when only
    one direction raises the two symmetric cells differ. *)
Lemma build_distance_matrix_stores_inf :
  Py.raises (@length_of_shortest_path ex_worker_raises
               nx.empty SNOMED_ROOT "100" "200") = true ∧
  @build_distance_matrix ex_worker_raises nx.empty ["100"; "200"]
    !! ("100", "200") = Some Inf ∧
  @build_distance_matrix ex_worker_raises nx.empty ["100"; "200"]
    !! ("100", "200") ≠ Some (Num 50) ∧
  @build_distance_matrix ex_worker_one_way nx.empty ["100"; "200"]
    !! ("100", "200") = Some (Num 3) ∧
  @build_distance_matrix ex_worker_one_way nx.empty ["100"; "200"]
    !! ("200", "100") = Some Inf.
Proof. repeat split; try (vm_compute; reflexivity). by vm_compute. Qed.

(** ** The dispatch *)

(** C5: a name that is none of the seven goes to the last branch, which
    gives the text "Wrong measure name!", and never the number of a
    measure. *)
Theorem calculateSimilarity_unknown_name {float : Type} (M : Measure float)
    (ontology : Ontology) (measure_name concept1 concept2 : string) :
  measure_name ∉ measure_names →
  calculateSimilarity ontology measure_name concept1 concept2
    = Ok (Text "Wrong measure name!") ∧
  ∀ x, calculateSimilarity ontology measure_name concept1 concept2
       ≠ Ok (Number x).
Proof.
  intros Hname. unfold measure_names in Hname.
  repeat (apply not_elem_of_cons in Hname as [?%String.eqb_neq Hname]).
  assert (calculateSimilarity ontology measure_name concept1 concept2
          = Ok (Text "Wrong measure name!")) as Hout.
  { unfold calculateSimilarity. by repeat case_match. }
  split; [done|]. intros x. by rewrite Hout.
Qed.

Lemma calculateSimilarity_unknown_name_witness :
  @calculateSimilarity Z ex_measure (mkOntology nx.empty nx.empty)
    "Cosine" "125605004" "284003005" = Ok (Text "Wrong measure name!").
Proof.
  apply (calculateSimilarity_unknown_name ex_measure).
  by apply (bool_decide_unpack _).
Defined.

(** ** Further facts on the builder *)

Lemma createGraph_node_iff Lines0 Lines1 wo g c :
  createGraph Lines0 Lines1 wo = Ok g →
  c ∈ nx.nodes g ↔
  (∃ line, line ∈ Lines0 ∧ active_concept_row line c) ∨
  (∃ line s d t, line ∈ Lines1 ∧ admitted_row wo line s d t ∧
                 (c = s ∨ c = d)).
Proof.
  intros (g0 & Hnodes & Hedges)%createGraph_Ok.
  apply builtNode_nodes in Hnodes as [He Hn].
  apply builtEdge_nodes in Hedges as [_ Hg]; [|by apply closed_empty_edges].
  rewrite Hg, Hn. simpl. set_solver.
Qed.

Lemma createGraph_edge_iff Lines0 Lines1 wo g s d :
  createGraph Lines0 Lines1 wo = Ok g →
  nx.edge g s d ↔ admitted_rel wo Lines1 s d.
Proof.
  intros (g0 & Hnodes & Hedges)%createGraph_Ok.
  apply builtNode_nodes in Hnodes as [He _].
  by apply (builtEdge_edge wo Lines1 g0).
Qed.

Lemma createGraph_label Lines0 Lines1 wo g s d t :
  createGraph Lines0 Lines1 wo = Ok g →
  nx.edges g !! (s, d) = Some t ↔ first_admitted wo Lines1 s d t.
Proof.
  intros (g0 & Hnodes & Hedges)%createGraph_Ok.
  apply builtNode_nodes in Hnodes as [He _].
  rewrite (builtEdge_edges _ _ _ _ _ _ _ Hedges), He. simpl.
  rewrite lookup_empty. naive_solver.
Qed.

Lemma createGraph_Raise Lines0 Lines1 wo e :
  createGraph Lines0 Lines1 wo = Raise e ↔
  e = IndexError ∧
  ((∃ line, line ∈ Lines0 ∧ length (split TAB line) < 3) ∨
   (∃ line, line ∈ Lines1 ∧ length (split TAB line) < 8)).
Proof.
  unfold createGraph.
  destruct (builtNode nx.empty Lines0) as [g0|e0] eqn:E0; simpl.
  - rewrite builtEdge_Raise. split; [naive_solver|].
    intros [-> [(line & Hin & Hlen)|?]]; [|done].
    assert (builtNode nx.empty Lines0 = Raise IndexError) as Hr
      by (apply builtNode_Raise; eauto).
    congruence.
  - apply builtNode_Raise in E0 as [-> ?]. naive_solver.
Qed.

Lemma edge_line_mono wo g line g1 :
  edge_line wo g line = Ok g1 →
  nx.nodes g ⊆ nx.nodes g1 ∧
  ∀ k t, nx.edges g !! k = Some t → nx.edges g1 !! k = Some t.
Proof.
  intros (a & s & d & t & _ & _ & _ & _ & ->)%edge_line_Ok.
  destruct (admits wo a t && negb (nx.has_edge g s d)) eqn:E; [|done].
  apply andb_true_iff in E as [_ He%negb_true_iff%has_edge_false].
  simpl. split; [set_solver|].
  intros k t' Hk. rewrite lookup_insert_ne; [done|congruence].
Qed.

Lemma builtEdge_mono wo lines : ∀ g0 g,
  builtEdge g0 lines wo = Ok g →
  nx.nodes g0 ⊆ nx.nodes g ∧
  ∀ k t, nx.edges g0 !! k = Some t → nx.edges g !! k = Some t.
Proof.
  induction lines as [|line rest IH]; intros g0 g; simpl.
  - by intros [= ->].
  - destruct (edge_line wo g0 line) as [g1|e] eqn:E1; simpl; [|done].
    intros [Hn He]%IH. apply edge_line_mono in E1 as [Hn1 He1].
    split; [set_solver|eauto].
Qed.

(** X1: the two loops only grow a graph, whatever graph they start from:
    [builtNode] leaves the edges alone and removes no node, [builtEdge]
    removes no node and never changes the label of a pair that already has
    one. *)
Theorem builder_only_grows (g0 g1 g : nx.DiGraph) (Lines0 Lines1 : list string)
    (wo : bool) :
  builtNode g0 Lines0 = Ok g1 →
  builtEdge g1 Lines1 wo = Ok g →
  nx.edges g1 = nx.edges g0 ∧
  nx.nodes g0 ⊆ nx.nodes g1 ∧ nx.nodes g1 ⊆ nx.nodes g ∧
  ∀ u v t, nx.edges g0 !! (u, v) = Some t → nx.edges g !! (u, v) = Some t.
Proof.
  intros [He Hn]%builtNode_nodes [Hn' He']%builtEdge_mono.
  split; [done|]. split; [|split; [done|]].
  - intros c Hc. apply Hn. by left.
  - intros u v t Huv. apply He'. by rewrite He.
Qed.

Lemma builder_only_grows_witness :
  ∃ g1 g,
    builtNode (nx.add_edge nx.empty "100" "200" "old") ex_concepts = Ok g1 ∧
    builtEdge g1 ex_rels true = Ok g ∧
    nx.edges g1 = nx.edges (nx.add_edge nx.empty "100" "200" "old") ∧
    nx.nodes (nx.add_edge nx.empty "100" "200" "old") ⊆ nx.nodes g1 ∧
    nx.nodes g1 ⊆ nx.nodes g ∧
    ∀ u v t,
      nx.edges (nx.add_edge nx.empty "100" "200" "old") !! (u, v) = Some t →
      nx.edges g !! (u, v) = Some t.
Proof.
  eexists. eexists.
  split; [vm_compute; reflexivity|]. split; [vm_compute; reflexivity|].
  apply (builder_only_grows _ _ _ ex_concepts ex_rels true);
    vm_compute; reflexivity.
Defined.

(** X2: in a graph that [createGraph] built, both end points of every edge
    are nodes. *)
Theorem createGraph_edges_join_nodes (Lines0 Lines1 : list string) (wo : bool)
    (g : nx.DiGraph) (u v : string) :
  createGraph Lines0 Lines1 wo = Ok g →
  nx.has_edge g u v = true →
  u ∈ nx.nodes g ∧ v ∈ nx.nodes g.
Proof.
  intros (g0 & Hnodes & Hedges)%createGraph_Ok Huv%has_edge_true.
  apply builtNode_nodes in Hnodes as [He _].
  apply builtEdge_nodes in Hedges as [Hcl _]; [|by apply closed_empty_edges].
  by apply Hcl.
Qed.

Lemma createGraph_edges_join_nodes_witness :
  ∃ g, createGraph ex_concepts ex_rels false = Ok g ∧
       "300" ∈ nx.nodes g ∧ "200" ∈ nx.nodes g.
Proof.
  eexists. split; [vm_compute; reflexivity|].
  apply (createGraph_edges_join_nodes ex_concepts ex_rels false);
    vm_compute; reflexivity.
Defined.

(** X3: the label of an edge of a built graph is the type field of a row
    admitted for that pair; in the is-a graph every label is
    "116680003". *)
Theorem createGraph_labels (Lines0 Lines1 : list string) (wo : bool)
    (g : nx.DiGraph) (s d t : string) :
  createGraph Lines0 Lines1 wo = Ok g →
  nx.edges g !! (s, d) = Some t →
  (∃ line, line ∈ Lines1 ∧ admitted_row wo line s d t) ∧
  (wo = true → t = "116680003").
Proof.
  intros Hg Ht. apply (createGraph_label _ _ _ _ _ _ _ Hg) in Ht.
  destruct Ht as (before & line & after & -> & Hrow & _).
  split.
  - exists line. split; [set_solver|done].
  - by destruct Hrow as (_ & _ & _ & _ & Hty).
Qed.

Lemma createGraph_labels_witness :
  ∃ g, createGraph ex_concepts ex_rels true = Ok g ∧
       (∃ line, line ∈ ex_rels ∧
                admitted_row true line "100" "200" "116680003").
Proof.
  eexists. split; [vm_compute; reflexivity|].
  refine (proj1 (createGraph_labels ex_concepts ex_rels true _
                   "100" "200" "116680003" _ _));
    vm_compute; reflexivity.
Defined.

(** X4: on the same rows, every node of the is-a graph is a node of the
    relation graph. *)
Theorem isa_nodes_in_rel_nodes (Lines0 Lines1 : list string)
    (g_isa g_rel : nx.DiGraph) :
  createGraph Lines0 Lines1 true = Ok g_isa →
  createGraph Lines0 Lines1 false = Ok g_rel →
  nx.nodes g_isa ⊆ nx.nodes g_rel.
Proof.
  intros Hisa Hrel c.
  rewrite (createGraph_node_iff _ _ _ _ _ Hisa).
  rewrite (createGraph_node_iff _ _ _ _ _ Hrel).
  intros [?|(line & s & d & t & Hin & Hrow%admitted_row_weaken & Hc)];
    [by left|right; eauto 10].
Qed.

Lemma isa_nodes_in_rel_nodes_witness :
  ∃ g_isa g_rel,
    createGraph ex_concepts ex_rels true = Ok g_isa ∧
    createGraph ex_concepts ex_rels false = Ok g_rel ∧
    nx.nodes g_isa ⊆ nx.nodes g_rel.
Proof.
  eexists. eexists.
  split; [vm_compute; reflexivity|]. split; [vm_compute; reflexivity|].
  apply (isa_nodes_in_rel_nodes ex_concepts ex_rels); vm_compute; reflexivity.
Defined.

Lemma add_node_present g c : c ∈ nx.nodes g → nx.add_node g c = g.
Proof.
  intros Hc. destruct g as [ns es]. unfold nx.add_node. simpl in *.
  f_equal. set_solver.
Qed.

Lemma builtNode_fixed g lines :
  (∀ line, line ∈ lines → node_line g line = Ok g) →
  builtNode g lines = Ok g.
Proof.
  induction lines as [|line rest IH]; intros Hall; simpl; [done|].
  rewrite Hall by (by left). simpl. apply IH.
  intros x Hx. apply Hall. by right.
Qed.

Lemma builtEdge_fixed wo g lines :
  (∀ line, line ∈ lines → edge_line wo g line = Ok g) →
  builtEdge g lines wo = Ok g.
Proof.
  induction lines as [|line rest IH]; intros Hall; simpl; [done|].
  rewrite Hall by (by left). simpl. apply IH.
  intros x Hx. apply Hall. by right.
Qed.

Lemma isa_label Lines0 Lines1 g s d t :
  createGraph Lines0 Lines1 true = Ok g →
  nx.edges g !! (s, d) = Some t → t = "116680003".
Proof.
  intros Hg Ht. apply (createGraph_label _ _ _ _ _ _ _ Hg) in Ht.
  destruct Ht as (? & ? & ? & _ & (_ & _ & _ & _ & Hty) & _). by apply Hty.
Qed.

(** X5: running the two loops again on a graph that [createGraph] built
    from the same rows changes nothing. *)
Theorem rebuild_changes_nothing (Lines0 Lines1 : list string) (wo : bool)
    (g : nx.DiGraph) :
  createGraph Lines0 Lines1 wo = Ok g →
  builtNode g Lines0 = Ok g ∧ builtEdge g Lines1 wo = Ok g.
Proof.
  intros Hg.
  pose proof Hg as (g0 & Hnodes & Hedges)%createGraph_Ok.
  split.
  - apply builtNode_fixed. intros line Hin.
    destruct (node_line g line) as [g1|e] eqn:E.
    + apply node_line_Ok in E as (c & a & Hc & Ha & ->). f_equal.
      destruct (String.eqb a "1") eqn:Hact; [|done].
      apply String.eqb_eq in Hact as ->.
      apply add_node_present, (createGraph_node_iff _ _ _ _ _ Hg).
      left. by exists line.
    + apply node_line_Raise in E as [-> Hlen].
      assert (builtNode nx.empty Lines0 = Raise IndexError)
        by (apply builtNode_Raise; eauto).
      congruence.
  - apply builtEdge_fixed. intros line Hin.
    destruct (edge_line wo g line) as [g1|e] eqn:E.
    + apply edge_line_Ok in E as (a & s & d & t & Ha & Hs & Hd & Ht & ->).
      f_equal.
      destruct (admits wo a t) eqn:Hadm; [|done].
      apply admits_spec in Hadm as [-> Hty].
      assert (nx.has_edge g s d = true) as ->; [|done].
      apply has_edge_true, (createGraph_edge_iff _ _ _ _ _ _ Hg).
      by exists line, t.
    + apply edge_line_Raise in E as [-> Hlen].
      assert (builtEdge g0 Lines1 wo = Raise IndexError)
        by (apply builtEdge_Raise; eauto).
      congruence.
Qed.

Lemma rebuild_changes_nothing_witness :
  ∃ g, createGraph ex_concepts ex_rels false = Ok g ∧
       builtNode g ex_concepts = Ok g ∧ builtEdge g ex_rels false = Ok g.
Proof.
  eexists. split; [vm_compute; reflexivity|].
  apply (rebuild_changes_nothing ex_concepts ex_rels false).
  vm_compute; reflexivity.
Defined.

(** X6: the order of the rows does not matter for the nodes and for the
    pairs that are edges; for the is-a graph it does not matter at all. *)
Theorem createGraph_row_order (Lines0 Lines0' Lines1 Lines1' : list string)
    (wo : bool) (g : nx.DiGraph) :
  Lines0 ≡ₚ Lines0' → Lines1 ≡ₚ Lines1' →
  createGraph Lines0 Lines1 wo = Ok g →
  ∃ g', createGraph Lines0' Lines1' wo = Ok g' ∧
        nx.nodes g' = nx.nodes g ∧
        (∀ u v, nx.has_edge g' u v = nx.has_edge g u v) ∧
        (wo = true → g' = g).
Proof.
  intros HP0 HP1 Hg.
  destruct (createGraph Lines0' Lines1' wo) as [g'|e] eqn:Hg'.
  - exists g'. split; [done|].
    assert (Hrel : ∀ s d, admitted_rel wo Lines1' s d ↔ admitted_rel wo Lines1 s d).
    { intros s d. unfold admitted_rel. by setoid_rewrite HP1. }
    assert (Hn : nx.nodes g' = nx.nodes g).
    { apply set_eq. intros c.
      rewrite (createGraph_node_iff _ _ _ _ _ Hg).
      rewrite (createGraph_node_iff _ _ _ _ _ Hg').
      setoid_rewrite HP0. by setoid_rewrite HP1. }
    assert (He : ∀ u v, nx.edge g' u v ↔ nx.edge g u v).
    { intros u v.
      rewrite (createGraph_edge_iff _ _ _ _ _ _ Hg).
      rewrite (createGraph_edge_iff _ _ _ _ _ _ Hg'). apply Hrel. }
    split; [done|]. split.
    + intros u v. apply eq_true_iff_eq. rewrite !has_edge_true. apply He.
    + intros ->.
      pose proof (λ s d t, isa_label _ _ _ s d t Hg) as Hl.
      pose proof (λ s d t, isa_label _ _ _ s d t Hg') as Hl'.
      destruct g as [ns es], g' as [ns' es']. simpl in *.
      f_equal; [done|]. apply map_eq. intros [s d].
      destruct (es' !! (s, d)) as [t'|] eqn:E';
        destruct (es !! (s, d)) as [t|] eqn:E; [| | |done].
      * apply Hl in E. apply Hl' in E'. congruence.
      * destruct (proj1 (He s d)) as [t Ht]; [by exists t'|].
        simpl in Ht. congruence.
      * destruct (proj2 (He s d)) as [t' Ht']; [by exists t|].
        simpl in Ht'. congruence.
  - apply createGraph_Raise in Hg' as [-> Hshort].
    assert (createGraph Lines0 Lines1 wo = Raise IndexError) as Hr.
    { apply createGraph_Raise. split; [done|].
      destruct Hshort as [(line & Hin & Hlen)|(line & Hin & Hlen)];
        [left|right]; exists line; split; try done.
      - by rewrite HP0.
      - by rewrite HP1. }
    congruence.
Qed.

Lemma createGraph_row_order_witness :
  ∃ g, createGraph ex_concepts ex_rels true = Ok g ∧
       createGraph (reverse ex_concepts) (reverse ex_rels) true = Ok g.
Proof.
  eexists. split; [vm_compute; reflexivity|].
  destruct (createGraph_row_order ex_concepts (reverse ex_concepts)
              ex_rels (reverse ex_rels) true _
              ltac:(by apply Permutation_sym, reverse_Permutation)
              ltac:(by apply Permutation_sym, reverse_Permutation)
              ltac:(vm_compute; reflexivity))
    as (g' & Hg' & _ & _ & Heq).
  rewrite Hg'. f_equal. by apply Heq.
Defined.

Lemma size_add_one (X : gset string) c : size ({[c]} ∪ X) ≤ S (size X).
Proof.
  rewrite size_union_alt, size_singleton.
  assert (size (X ∖ {[c]}) ≤ size X) by (apply subseteq_size; set_solver).
  lia.
Qed.

Lemma builtNode_size lines : ∀ g0 g,
  builtNode g0 lines = Ok g →
  size (nx.nodes g) ≤ size (nx.nodes g0) + length lines.
Proof.
  induction lines as [|line rest IH]; intros g0 g; simpl.
  - intros [= ->]. lia.
  - destruct (node_line g0 line) as [g1|e] eqn:E1; simpl; [|done].
    intros Hrest%IH.
    apply node_line_Ok in E1 as (c & a & _ & _ & ->).
    destruct (String.eqb a "1"); simpl in *; [|lia].
    pose proof (size_add_one (nx.nodes g0) c). lia.
Qed.

Lemma builtEdge_size wo lines : ∀ g0 g,
  builtEdge g0 lines wo = Ok g →
  size (nx.nodes g) ≤ size (nx.nodes g0) + 2 * length lines ∧
  size (nx.edges g) ≤ size (nx.edges g0) + length lines.
Proof.
  induction lines as [|line rest IH]; intros g0 g; simpl.
  - intros [= ->]. lia.
  - destruct (edge_line wo g0 line) as [g1|e] eqn:E1; simpl; [|done].
    intros [Hn He]%IH.
    apply edge_line_Ok in E1 as (a & s & d & t & _ & _ & _ & _ & ->).
    destruct (admits wo a t && negb (nx.has_edge g0 s d)) eqn:E;
      simpl in *; [|lia].
    apply andb_true_iff in E as [_ Hnone%negb_true_iff%has_edge_false].
    rewrite map_size_insert_None in He by done.
    replace ({[s; d]} ∪ nx.nodes g0) with ({[s]} ∪ ({[d]} ∪ nx.nodes g0))
      in Hn by set_solver.
    pose proof (size_add_one ({[d]} ∪ nx.nodes g0) s).
    pose proof (size_add_one (nx.nodes g0) d). lia.
Qed.

(** X7: a built graph has at most one edge per relationship row, and at
    most one node per concept row plus two per relationship row. *)
Theorem createGraph_size (Lines0 Lines1 : list string) (wo : bool)
    (g : nx.DiGraph) :
  createGraph Lines0 Lines1 wo = Ok g →
  size (nx.edges g) ≤ length Lines1 ∧
  size (nx.nodes g) ≤ length Lines0 + 2 * length Lines1.
Proof.
  intros (g0 & Hnodes & Hedges)%createGraph_Ok.
  pose proof (builtNode_size _ _ _ Hnodes) as Hn0.
  apply builtNode_nodes in Hnodes as [He0 _].
  apply builtEdge_size in Hedges as [Hn He].
  assert (size (nx.nodes nx.empty) = 0) as Hnone by apply size_empty.
  assert (size (nx.edges nx.empty) = 0) as Henone by apply map_size_empty.
  rewrite He0, Henone in He. rewrite Hnone in Hn0. lia.
Qed.

Lemma createGraph_size_witness :
  ∃ g, createGraph ex_concepts (ex_rels ++ ex_rels) false = Ok g ∧
       size (nx.edges g) ≤ 4 ∧ size (nx.nodes g) ≤ 10.
Proof.
  eexists. split; [vm_compute; reflexivity|].
  apply (createGraph_size ex_concepts (ex_rels ++ ex_rels) false).
  vm_compute; reflexivity.
Defined.

Lemma split_tab_free s : tab_free s = true → split TAB s = [s].
Proof.
  induction s as [|c s IH]; simpl; [done|].
  intros [Hc Hs]%andb_true_iff. apply negb_true_iff in Hc. rewrite Hc.
  by rewrite IH.
Qed.

Lemma split_field_tab s rest :
  tab_free s = true →
  split TAB (s +:+ String TAB rest) = s :: split TAB rest.
Proof.
  induction s as [|c s IH]; simpl.
  - by intros _.
  - intros [Hc Hs]%andb_true_iff. apply negb_true_iff in Hc. rewrite Hc.
    by rewrite IH.
Qed.

Lemma split_row fields :
  fields ≠ [] → forallb tab_free fields = true →
  split TAB (row fields) = fields.
Proof.
  unfold row. induction fields as [|x rest IH]; [done|].
  intros _ [Hx Hrest]%andb_true_iff.
  destruct rest as [|y rest]; [by apply split_tab_free|].
  change (String.concat (String TAB EmptyString) (x :: y :: rest))
    with (x +:+ String TAB (String.concat (String TAB EmptyString) (y :: rest))).
  rewrite split_field_tab by done. f_equal. by apply IH.
Qed.

(** X8: on a row given by its fields, none of which holds a tab: a concept
    row adds its first field as a node exactly when its third field is "1",
    and a relationship row of at least eight fields adds the edge from its
    fifth to its sixth field, labelled with its eighth, exactly when the
    admission test passes and the pair is not an edge yet. *)
Theorem rows_by_fields (g : nx.DiGraph) (wo : bool)
    (id time active module source destination group type : string)
    (rest rest' : list string) :
  forallb tab_free (id :: time :: active :: rest) = true →
  forallb tab_free
    (id :: time :: active :: module :: source :: destination :: group ::
     type :: rest') = true →
  node_line g (row (id :: time :: active :: rest))
    = Ok (if String.eqb active "1" then nx.add_node g id else g) ∧
  edge_line wo g
    (row (id :: time :: active :: module :: source :: destination :: group ::
          type :: rest'))
    = Ok (if admits wo active type && negb (nx.has_edge g source destination)
          then nx.add_edge g source destination type else g).
Proof.
  intros Hfree Hfree'. split.
  - apply node_line_Ok. exists id, active. unfold field.
    by rewrite split_row.
  - apply edge_line_Ok. exists active, source, destination, type. unfold field.
    by rewrite split_row.
Qed.

Lemma rows_by_fields_witness :
  edge_line true nx.empty
    (row ["r1"; "20230430"; "1"; "m"; "100"; "200"; "0"; "116680003"; "c"])
  = Ok (nx.add_edge nx.empty "100" "200" "116680003").
Proof.
  refine (proj2 (rows_by_fields nx.empty true
            "r1" "20230430" "1" "m" "100" "200" "0" "116680003" [] ["c"]
            _ _));
    vm_compute; reflexivity.
Defined.

(** ** Further facts on the dispatch *)



(** ** Further facts on the distances *)

(** X10: for two different concepts the symmetrized distance is a number
    exactly when both directed queries return numbers, and it is then the
    smaller of the two; a query that raises in one direction discards the
    answer of the other. *)
Theorem shortest_path_distance_number (W : Worker) (graph : nx.DiGraph)
    (c1 c2 : string) (dist : Z) :
  c1 ≠ c2 →
  shortest_path_distance graph c1 c2 = Int dist ↔
  ∃ x y, length_of_shortest_path graph SNOMED_ROOT c1 c2 = Ok (Int x) ∧
         length_of_shortest_path graph SNOMED_ROOT c2 c1 = Ok (Int y) ∧
         dist = Z.min x y.
Proof.
  intros Hne%String.eqb_neq. unfold shortest_path_distance. rewrite Hne.
  destruct (length_of_shortest_path graph SNOMED_ROOT c1 c2) as [[x|]|e1];
    destruct (length_of_shortest_path graph SNOMED_ROOT c2 c1) as [[y|]|e2];
    simpl; try (split; [done|by intros (? & ? & ? & ? & ?)]).
  split; [intros [= <-]; eauto|].
  by intros (? & ? & [= <-] & [= <-] & ->).
Qed.

Lemma shortest_path_distance_number_witness :
  @shortest_path_distance ex_worker_one_way nx.empty "100" "200" ≠ Int 3.
Proof.
  intros Hd.
  apply (shortest_path_distance_number ex_worker_one_way nx.empty
           "100" "200" 3) in Hd; [|by apply (bool_decide_unpack _)].
  destruct Hd as (x & y & _ & Hy & _). vm_compute in Hy. congruence.
Defined.

Lemma frame_is_Some labels fill a b :
  is_Some (frame labels fill !! (a, b)) ↔ a ∈ labels ∧ b ∈ labels.
Proof.
  unfold frame. rewrite <- elem_of_dom, dom_list_to_map_L, elem_of_list_to_set.
  rewrite list_elem_of_fmap. split.
  - intros ([k v] & Hk & Hin). simpl in Hk. subst k.
    apply list_elem_of_bind in Hin as (c1 & Hin & H1).
    apply list_elem_of_bind in Hin as (c2 & Hin & H2).
    apply list_elem_of_singleton in Hin. by simplify_eq.
  - intros [Ha Hb]. exists ((a, b), fill). split; [done|].
    apply list_elem_of_bind. exists a. split; [|done].
    apply list_elem_of_bind. exists b. split; [|done].
    by apply list_elem_of_singleton.
Qed.

Section MatrixFacts.
Context `{Worker} (graph : nx.DiGraph).

Lemma pairwise_cell_shaped (labels : list string)
    (m : gmap (string * string) cell) (i : nat) (c1 : string) (j : nat)
    (c2 : string) :
  c1 ∈ labels → c2 ∈ labels → shaped labels m →
  shaped labels (pairwise_cell graph m i c1 j c2).
Proof.
  intros H1 H2 Hm a b. unfold pairwise_cell.
  repeat case_match; rewrite ?lookup_insert_is_Some', ?(Hm a b); naive_solver.
Qed.

Lemma build_cell_shaped (labels : list string)
    (m : gmap (string * string) cell) (c1 c2 : string) :
  c1 ∈ labels → c2 ∈ labels → shaped labels m →
  shaped labels (build_cell graph m c1 c2).
Proof.
  intros H1 H2 Hm a b. unfold build_cell.
  repeat case_match; rewrite ?lookup_insert_is_Some', ?(Hm a b); naive_solver.
Qed.

Lemma pairwise_shaped (concepts : list string) :
  shaped concepts (calculate_pairwise_distances_from_graph concepts graph).
Proof.
  unfold calculate_pairwise_distances_from_graph.
  apply (foldl_invariant _ (λ m, shaped concepts m));
    [|intros a b; apply frame_is_Some].
  intros m [i c1] H1%elem_of_enumerate%list_elem_of_lookup_2 Hm.
  apply (foldl_invariant _ (λ m, shaped concepts m)); [|done].
  intros m' [j c2] H2%elem_of_enumerate%list_elem_of_lookup_2 Hm'.
  by apply pairwise_cell_shaped.
Qed.

Lemma build_shaped (concept_list : list string) :
  shaped concept_list (build_distance_matrix graph concept_list).
Proof.
  unfold build_distance_matrix.
  apply (foldl_invariant _ (λ m, shaped concept_list m));
    [|intros a b; apply frame_is_Some].
  intros m c1 H1 Hm.
  apply (foldl_invariant _ (λ m, shaped concept_list m)); [|done].
  intros m' c2 H2 Hm'. by apply build_cell_shaped.
Qed.

End MatrixFacts.



(** ** The agreement of two mappers *)

Lemma tally_fold m1 m2 (data : list series) : ∀ t,
  let t' := foldl (tally_row m1 m2) t data in
  (agreements t + disagreements t = both_responded t →
   agreements t' + disagreements t' = both_responded t') ∧
  both_responded t' ≤ both_responded t + length data ∧
  (disagreements t' = 0 ↔
   disagreements t = 0 ∧
   ∀ row x1 x2, row ∈ data → row m1 = Some x1 → row m2 = Some x2 → x1 = x2).
Proof.
  induction data as [|row rest IH]; intros t; simpl.
  - split; [done|]. split; [lia|]. split; [|naive_solver].
    intros Hd. split; [done|]. intros row x1 x2 []%elem_of_nil.
  - destruct (IH (tally_row m1 m2 t row)) as (Hsum & Hle & Hzero).
    assert (Hstep :
      (agreements t + disagreements t = both_responded t →
       agreements (tally_row m1 m2 t row) + disagreements (tally_row m1 m2 t row)
       = both_responded (tally_row m1 m2 t row)) ∧
      both_responded (tally_row m1 m2 t row) ≤ S (both_responded t) ∧
      (disagreements (tally_row m1 m2 t row) = 0 ↔
       disagreements t = 0 ∧
       ∀ x1 x2, row m1 = Some x1 → row m2 = Some x2 → x1 = x2)).
    { unfold tally_row.
      destruct (row m1) as [x1|], (row m2) as [x2|]; simpl;
        try (split; [done|split; [lia|naive_solver]]).
      destruct (String.eqb x1 x2) eqn:E; simpl.
      - apply String.eqb_eq in E as ->.
        split; [lia|]. split; [lia|]. naive_solver.
      - apply String.eqb_neq in E.
        split; [lia|]. split; [lia|]. split; [lia|].
        intros [_ Heq]. by destruct E; apply Heq. }
    destruct Hstep as (Hsum1 & Hle1 & Hzero1).
    split; [auto|]. split; [lia|].
    rewrite Hzero, Hzero1. setoid_rewrite elem_of_cons. split.
    + intros [[Hd Hrow] Hrest]. split; [done|].
      intros r x1 x2 [->|Hin]; eauto.
    + intros [Hd Hall]. split; [split; [done|]|]; eauto.
Qed.

(** X13: in every entry of the result the agreements and the
    disagreements add up to the rows where both mappers answered, and
    these are at most the rows of the table. *)
Theorem mapper_agreement_counts (data : list series) (r : comparison) :
  r ∈ calculate_pairwise_mapper_agreement data →
  agreements (counts r) + disagreements (counts r) = both_responded (counts r) ∧
  both_responded (counts r) ≤ length data.
Proof.
  unfold calculate_pairwise_mapper_agreement.
  intros ([m1 m2] & -> & _)%list_elem_of_fmap. simpl.
  destruct (tally_fold m1 m2 data (mkTally 0 0 0)) as (Hsum & Hle & _).
  simpl in *. split; [by apply Hsum|lia].
Qed.

Lemma mapper_agreement_counts_witness :
  agreements (mkTally 2 1 1) + disagreements (mkTally 2 1 1)
    = both_responded (mkTally 2 1 1) ∧
  both_responded (mkTally 2 1 1) ≤ length ex_table.
Proof.
  apply (mapper_agreement_counts ex_table
           (mkComparison "Mapper_A" "Mapper_B" (mkTally 2 1 1))).
  vm_compute. left.
Defined.

(** X14: an entry counts no disagreement exactly when the two mappers
    gave the same concept on every row where both answered. *)
Theorem mapper_no_disagreement (data : list series) (r : comparison) :
  r ∈ calculate_pairwise_mapper_agreement data →
  disagreements (counts r) = 0 ↔
  ∀ row x1 x2, row ∈ data →
    row (mapper1 r) = Some x1 → row (mapper2 r) = Some x2 → x1 = x2.
Proof.
  unfold calculate_pairwise_mapper_agreement.
  intros ([m1 m2] & -> & _)%list_elem_of_fmap. simpl.
  destruct (tally_fold m1 m2 data (mkTally 0 0 0)) as (_ & _ & Hzero).
  simpl in *. rewrite Hzero. naive_solver.
Qed.

Lemma mapper_no_disagreement_witness :
  disagreements (mkTally 2 1 1) = 0 ↔
  ∀ row x1 x2, row ∈ ex_table →
    row "Mapper_A" = Some x1 → row "Mapper_B" = Some x2 → x1 = x2.
Proof.
  apply (mapper_no_disagreement ex_table
           (mkComparison "Mapper_A" "Mapper_B" (mkTally 2 1 1))).
  vm_compute. left.
Defined.
